(** * clang-minimal-example: the entry procedure of [src/main.cc]

    [main] builds a fixed flag list, asks the Clang tooling library to parse
    [argv[1]] as the virtual file input.cc, leaves with status 1 when no
    [ASTUnit] comes back or when its diagnostics record an uncompilable
    error, and otherwise asks for a colour dump of the translation unit and
    falls off the end of [main] (status 0).

    The Clang library is not part of the repository.  Its types are an
    interface ([Clang]), its entry points are the requests a program can make
    ([call]), and a [toolchain] answers them.  [main] is a small tree of such
    requests; [run] plays it against a toolchain and records the exit status
    together with the requests made, in order. *)

From Stdlib Require Import Ascii String List ZArith Bool Lia.
Import ListNotations.
Local Open Scope string_scope.
Local Open Scope Z_scope.

(** ** The part of the Clang API [main] touches *)

(** Opaque library types and the accessors [main] chains through:
    [AST->getDiagnostics()], [AST->getASTContext()] and
    [Ctx.getTranslationUnitDecl()] hand back references and do nothing else. *)
Class Clang : Type := {
  ASTUnit : Type;
  DiagnosticsEngine : Type;
  ASTContext : Type;
  TranslationUnitDecl : Type;
  getDiagnostics : ASTUnit -> DiagnosticsEngine;
  getASTContext : ASTUnit -> ASTContext;
  getTranslationUnitDecl : ASTContext -> TranslationUnitDecl
}.

Section Program.

Context {clang : Clang}.

(** [CLANG_PATH] is a macro supplied by the build (it is not defined in
    main.cc); it is kept abstract. *)
Variable CLANG_PATH : string.

(** The library entry points [main] calls.
    - [tooling::buildASTFromCodeWithArgs(Code, Args, FileName, ToolName)]
    - [DiagnosticsEngine::hasUncompilableErrorOccurred()]
    - [Decl::dumpColor()], which takes no stream: where the dump is written
      is the library's business. *)
Inductive call : Type :=
| buildASTFromCodeWithArgs (Code : string) (Args : list string)
                           (FileName ToolName : string)
| hasUncompilableErrorOccurred (Diags : DiagnosticsEngine)
| dumpColor (D : TranslationUnitDecl).

(** What each call hands back: a [std::unique_ptr<ASTUnit>] may be null. *)
Definition reply (c : call) : Type :=
  match c with
  | buildASTFromCodeWithArgs _ _ _ _ => option ASTUnit
  | hasUncompilableErrorOccurred _ => bool
  | dumpColor _ => unit
  end.

(** A program: return a status, or make a call and go on with its reply. *)
Inductive prog (R : Type) : Type :=
| Return (r : R)
| Bind (c : call) (k : reply c -> prog R).

Arguments Return {R} r.
Arguments Bind {R} c k.

Notation "x <- c ;; k" := (Bind c (fun x => k))
  (at level 61, c at next level, right associativity).

(** ** [main] *)

(** [std::vector<std::string> Args { "-std=c++20", "-Wall" }] *)
Definition Args : list string := ["-std=c++20"; "-Wall"].

(** [int main(int argc, char** argv)].  [argv] is the list of argument
    strings, [argv[0]] first.  [argc] is a parameter like in the source and,
    like there, is never read.

    [argv[1]] is read with no test before it.  The embedding covers the
    invocations in which that entry holds a string; for the others ([None])
    it assigns no run: what the read yields there (the terminating null
    pointer, or memory past the vector) and what the library makes of it is
    not decided by main.cc. *)
Definition main (argc : Z) (argv : list string) : option (prog Z) :=
  match nth_error argv 1 with
  | None => None
  | Some Code =>
    Some (
      AST <- buildASTFromCodeWithArgs Code Args "input.cc" CLANG_PATH ;;
      match AST with
      | None => Return 1                       (* if (!AST) return 1; *)
      | Some AST =>
        err <- hasUncompilableErrorOccurred (getDiagnostics AST) ;;
        if (err : bool) then Return 1 else
        _ <- dumpColor (getTranslationUnitDecl (getASTContext AST)) ;;
        Return 0                               (* end of main *)
      end)
  end.

(** ** Running a program against a toolchain *)

(** A toolchain decides what a parse returns and whether a diagnostics
    engine has seen an uncompilable error. *)
Record toolchain : Type := {
  parse : string -> list string -> string -> string -> option ASTUnit;
  uncompilable : DiagnosticsEngine -> bool
}.

Definition answer (tc : toolchain) (c : call) : reply c :=
  match c with
  | buildASTFromCodeWithArgs Code As FileName ToolName =>
      parse tc Code As FileName ToolName
  | hasUncompilableErrorOccurred Diags => uncompilable tc Diags
  | dumpColor _ => tt
  end.

(** The outcome of a run: the process exit status and every call made, in
    the order made. *)
Record result : Type := { exit_code : Z; calls : list call }.

Fixpoint run (tc : toolchain) (p : prog Z) : result :=
  match p with
  | Return r => {| exit_code := r; calls := [] |}
  | Bind c k =>
      let r := run tc (k (answer tc c)) in
      {| exit_code := exit_code r; calls := c :: calls r |}
  end.

Definition exec (tc : toolchain) (argc : Z) (argv : list string)
  : option result :=
  option_map (run tc) (main argc argv).

(** The dumps a run asked for: the only calls of [main] that write. *)
Definition dump_requests (l : list call) : list TranslationUnitDecl :=
  flat_map (fun c => match c with dumpColor D => [D] | _ => [] end) l.

(** The two output streams of the process. *)
Inductive stream : Type := stdout | stderr.

Definition stream_eqb (s s' : stream) : bool :=
  match s, s' with
  | stdout, stdout | stderr, stderr => true
  | _, _ => false
  end.

(** The stream a call writes its own output on.  [main] names none: it calls
    [dumpColor()], which has no parameter.  The choice is made in Clang, not
    in this repository: [Decl::dumpColor] (clang/lib/AST/ASTDumper.cpp)
    builds its dumper on [llvm::errs()], the standard error stream.  The
    parse and the diagnostics query are not asked to print anything. *)
Definition stream_of (c : call) : option stream :=
  match c with
  | dumpColor _ => Some stderr
  | _ => None
  end.

(** What a run's calls wrote on stream [s]: the dumps whose stream it is. *)
Definition written_on (s : stream) (l : list call) : list TranslationUnitDecl :=
  flat_map (fun c => match c, stream_of c with
                     | dumpColor D, Some s' =>
                         if stream_eqb s s' then [D] else []
                     | _, _ => []
                     end) l.

(** The parses a run asked for, with all four arguments. *)
Definition parse_requests (l : list call)
  : list (string * list string * string * string) :=
  flat_map (fun c => match c with
                     | buildASTFromCodeWithArgs Code As FileName ToolName =>
                         [(Code, As, FileName, ToolName)]
                     | _ => []
                     end) l.

(** The diagnostics engines a run asked about. *)
Definition query_requests (l : list call) : list DiagnosticsEngine :=
  flat_map (fun c => match c with
                     | hasUncompilableErrorOccurred Diags => [Diags]
                     | _ => []
                     end) l.

(** Flag shapes, for reading [Args]. *)
Definition is_std_selector (flag : string) : bool := prefix "-std=" flag.
Definition is_warning_flag (flag : string) : bool := prefix "-W" flag.

(** The three runs [main] can make on source text [Code]. *)
Definition the_parse (Code : string) : call :=
  buildASTFromCodeWithArgs Code Args "input.cc" CLANG_PATH.

Definition the_query (AST : ASTUnit) : call :=
  hasUncompilableErrorOccurred (getDiagnostics AST).

Definition the_dump (AST : ASTUnit) : call :=
  dumpColor (getTranslationUnitDecl (getASTContext AST)).

Definition outcome (tc : toolchain) (Code : string) : result :=
  match parse tc Code Args "input.cc" CLANG_PATH with
  | None => {| exit_code := 1; calls := [the_parse Code] |}
  | Some AST =>
      if uncompilable tc (getDiagnostics AST)
      then {| exit_code := 1; calls := [the_parse Code; the_query AST] |}
      else {| exit_code := 0;
              calls := [the_parse Code; the_query AST; the_dump AST] |}
  end.

End Program.

Arguments Return {clang R} r.
Arguments Bind {clang R} c k.

(** ** A stand-in toolchain, for running [main] on concrete inputs *)

Module Stub.

(** Every library object is the source text it came from. *)
Definition clang : Clang := {|
  ASTUnit := string;
  DiagnosticsEngine := string;
  ASTContext := string;
  TranslationUnitDecl := string;
  getDiagnostics := fun AST => AST;
  getASTContext := fun AST => AST;
  getTranslationUnitDecl := fun Ctx => Ctx
|}.

Definition unit_of (Code : string) : @ASTUnit clang := Code.

Definition path : string := "/usr/lib/llvm/bin/clang".

(** No result for the text "crash"; an uncompilable error for any text that
    does not end in a semicolon or a closing brace, the empty text apart. *)
Definition ends_well (Code : string) : bool :=
  match rev (list_ascii_of_string Code) with
  | [] => true
  | c :: _ => (Ascii.eqb c ";" || Ascii.eqb c "}")%char
  end.

Definition tc : @toolchain clang := {|
  parse := fun Code _ _ _ =>
    if String.eqb Code "crash" then None else Some (unit_of Code);
  uncompilable := fun Diags : @DiagnosticsEngine clang => negb (ends_well Diags)
|}.

(** A second toolchain: it refuses every file name but input.cc and finds
    no fault with the text "int y"; on what [main] asks about "int x;" it
    answers like [tc]. *)
Definition tc_strict : @toolchain clang := {|
  parse := fun Code As FileName ToolName =>
    if String.eqb FileName "input.cc"
    then parse tc Code As FileName ToolName else None;
  uncompilable := fun Diags : @DiagnosticsEngine clang =>
    if String.eqb Diags "int y" then false else uncompilable tc Diags
|}.

(** Argument vectors: a declaration, the text the stub cannot parse, a
    declaration with its semicolon missing, and the first one again under
    another program name and with two more arguments. *)
Definition argv_ok : list string := ["clang-minimal-example"; "int x;"].
Definition argv_crash : list string := ["clang-minimal-example"; "crash"].
Definition argv_bad : list string := ["clang-minimal-example"; "int x"].
Definition argv_more : list string := ["./a.out"; "int x;"; "-v"; "int y;"].

End Stub.

(** ** A stand-in toolchain that names the file of each diagnostic *)

Module Lined.

(** Clang reports a diagnostic at the presumed location of the offending
    token: in the file named to the parse, until a line marker
    [#line N "name"] in the text gives the lines after it another name.
    This stand-in follows it in that: a unit is the list of the files its
    diagnostics name, one entry for every line that is neither a marker nor
    well ended. *)
Definition clang : Clang := {|
  ASTUnit := list string;
  DiagnosticsEngine := list string;
  ASTContext := unit;
  TranslationUnitDecl := unit;
  getDiagnostics := fun AST => AST;
  getASTContext := fun _ => tt;
  getTranslationUnitDecl := fun _ => tt
|}.

Definition dquote : ascii := "034"%char.
Definition newline : ascii := "010"%char.

Fixpoint split_lines (text : string) : list string :=
  match text with
  | EmptyString => [EmptyString]
  | String c rest =>
      if Ascii.eqb c newline then EmptyString :: split_lines rest
      else match split_lines rest with
           | [] => [String c EmptyString]
           | line :: more => String c line :: more
           end
  end.

Fixpoint until_quote (text : string) : string :=
  match text with
  | EmptyString => EmptyString
  | String c rest =>
      if Ascii.eqb c dquote then EmptyString else String c (until_quote rest)
  end.

Fixpoint after_quote (text : string) : option string :=
  match text with
  | EmptyString => None
  | String c rest => if Ascii.eqb c dquote then Some rest else after_quote rest
  end.

(** The file name a line marker gives, if the line is one. *)
Definition line_marker (line : string) : option string :=
  if prefix "#line " line then option_map until_quote (after_quote line)
  else None.

Fixpoint diagnose (file : string) (lines : list string) : list string :=
  match lines with
  | [] => []
  | line :: more =>
      match line_marker line with
      | Some name => diagnose name more
      | None => if Stub.ends_well line then diagnose file more
                else file :: diagnose file more
      end
  end.

Definition tc : @toolchain clang := {|
  parse := fun Code _ FileName _ =>
    Some (diagnose FileName (split_lines Code) : @ASTUnit clang);
  uncompilable := fun Diags : @DiagnosticsEngine clang =>
    match Diags with [] => false | _ :: _ => true end
|}.

(** The files the diagnostics of an engine name. *)
Definition diagnostic_files (Diags : @DiagnosticsEngine clang) : list string :=
  Diags.

(** The text
<<
#line 1 "other.h"
int x
>>
    whose missing semicolon Clang reports at other.h:1. *)
Definition marked : string :=
  "#line 1 " ++ String dquote "other.h" ++ String dquote (String newline "int x").

Definition path : string := "/usr/lib/llvm/bin/clang".

Definition argv_marked : list string := ["clang-minimal-example"; marked].

End Lined.

(** * Properties of [main] *)

Section ProgramFacts.

Context {clang : Clang}.
Variable CLANG_PATH : string.

(** [main] never looks at [argc], nor at any entry of [argv] but the one at
    index 1. *)
Lemma main_reads_argv1_only (argc argc' : Z) (argv argv' : list string) :
  nth_error argv 1 = nth_error argv' 1 ->
  main CLANG_PATH argc argv = main CLANG_PATH argc' argv'.
Proof.
  intros Hsame. unfold main. now rewrite Hsame.
Qed.

(** With a string at [argv[1]] the program runs, and its run is [outcome]. *)
Lemma exec_outcome (tc : toolchain) (argc : Z) (argv : list string)
      (Code : string) :
  nth_error argv 1 = Some Code ->
  exec CLANG_PATH tc argc argv = Some (outcome CLANG_PATH tc Code).
Proof.
  intros Harg. unfold exec, main, outcome.
  rewrite Harg. cbn.
  destruct (parse tc Code Args "input.cc" CLANG_PATH) as [AST|]; cbn.
  - destruct (uncompilable tc (getDiagnostics AST)); reflexivity.
  - reflexivity.
Qed.

(** Whatever the toolchain answers, a run asks for one parse, and asks it
    with the text of [argv[1]], [Args], input.cc and [CLANG_PATH]. *)
Lemma outcome_parse_requests (tc : toolchain) (Code : string) :
  parse_requests (calls (outcome CLANG_PATH tc Code))
  = [(Code, Args, "input.cc", CLANG_PATH)].
Proof.
  unfold outcome.
  destruct (parse tc Code Args "input.cc" CLANG_PATH) as [AST|];
    [destruct (uncompilable tc (getDiagnostics AST))|]; reflexivity.
Qed.

(** Replace [exec] by its closed form and split on the toolchain's answers. *)
Ltac by_outcome Harg :=
  rewrite (exec_outcome _ _ _ _ Harg); eexists; split; [reflexivity|];
  unfold outcome.

(** C1 (amended). When the parse returns a unit and its diagnostics record
    no uncompilable error, the run exits with status 0 and asks for exactly
    one dump, that of the unit's translation unit, after the parse and the
    diagnostics query.  The dump is asked through [dumpColor()], which names
    no stream: it is written on standard error, and nothing is written on
    standard output. *)
Theorem main_success (tc : toolchain) (argc : Z) (argv : list string)
        (Code : string) (AST : ASTUnit) :
  nth_error argv 1 = Some Code ->
  parse tc Code Args "input.cc" CLANG_PATH = Some AST ->
  uncompilable tc (getDiagnostics AST) = false ->
  exists r, exec CLANG_PATH tc argc argv = Some r /\
    exit_code r = 0 /\
    dump_requests (calls r) = [getTranslationUnitDecl (getASTContext AST)] /\
    calls r = [buildASTFromCodeWithArgs Code Args "input.cc" CLANG_PATH;
               hasUncompilableErrorOccurred (getDiagnostics AST);
               dumpColor (getTranslationUnitDecl (getASTContext AST))] /\
    written_on stderr (calls r)
    = [getTranslationUnitDecl (getASTContext AST)] /\
    written_on stdout (calls r) = [].
Proof.
  intros Harg Hparse Hdiag. by_outcome Harg.
  rewrite Hparse, Hdiag. cbn. repeat split.
Qed.

(** C2. When the parse returns no unit, the run exits with status 1 right
    after the parse: the parse is its only call, and no dump is asked for. *)
Theorem main_no_result (tc : toolchain) (argc : Z) (argv : list string)
        (Code : string) :
  nth_error argv 1 = Some Code ->
  parse tc Code Args "input.cc" CLANG_PATH = None ->
  exists r, exec CLANG_PATH tc argc argv = Some r /\
    exit_code r = 1 /\
    calls r = [buildASTFromCodeWithArgs Code Args "input.cc" CLANG_PATH] /\
    dump_requests (calls r) = [].
Proof.
  intros Harg Hparse. by_outcome Harg.
  rewrite Hparse. cbn. repeat split.
Qed.

(** C3. When the parse returns a unit whose diagnostics record an
    uncompilable error, the run exits with status 1 after the diagnostics
    query and asks for no dump. *)
Theorem main_uncompilable (tc : toolchain) (argc : Z) (argv : list string)
        (Code : string) (AST : ASTUnit) :
  nth_error argv 1 = Some Code ->
  parse tc Code Args "input.cc" CLANG_PATH = Some AST ->
  uncompilable tc (getDiagnostics AST) = true ->
  exists r, exec CLANG_PATH tc argc argv = Some r /\
    exit_code r = 1 /\
    calls r = [buildASTFromCodeWithArgs Code Args "input.cc" CLANG_PATH;
               hasUncompilableErrorOccurred (getDiagnostics AST)] /\
    dump_requests (calls r) = [].
Proof.
  intros Harg Hparse Hdiag. by_outcome Harg.
  rewrite Hparse, Hdiag. cbn. repeat split.
Qed.

(** C4. For every source text and every toolchain the exit status is 0 or 1;
    it is 0 exactly when the parse returned a unit without uncompilable
    error, and 1 when there is no unit and when the unit has such an error. *)
Theorem main_exit_code (tc : toolchain) (argc : Z) (argv : list string)
        (Code : string) :
  nth_error argv 1 = Some Code ->
  exists r, exec CLANG_PATH tc argc argv = Some r /\
    (exit_code r = 0 \/ exit_code r = 1) /\
    (exit_code r = 0 <->
       exists AST, parse tc Code Args "input.cc" CLANG_PATH = Some AST /\
                   uncompilable tc (getDiagnostics AST) = false) /\
    (parse tc Code Args "input.cc" CLANG_PATH = None -> exit_code r = 1) /\
    (forall AST, parse tc Code Args "input.cc" CLANG_PATH = Some AST ->
                 uncompilable tc (getDiagnostics AST) = true ->
                 exit_code r = 1).
Proof.
  intros Harg. by_outcome Harg.
  destruct (parse tc Code Args "input.cc" CLANG_PATH) as [AST|] eqn:Hparse.
  - destruct (uncompilable tc (getDiagnostics AST)) eqn:Hdiag; cbn.
    + split; [now right|]. split; [|split; [discriminate|reflexivity]].
      split; [discriminate|].
      intros (AST' & [= <-] & Hno). congruence.
    + split; [now left|]. split; [|split; [discriminate|]].
      * split; [|reflexivity]. intros _. now exists AST.
      * intros AST' [= <-] Hyes. congruence.
  - cbn. split; [now right|]. split; [|split; [reflexivity|discriminate]].
    split; [discriminate|]. now intros (AST' & [=] & _).
Qed.

(** C5. A run that exits with status 1 has asked for no dump: its calls are
    the parse alone, or the parse and the diagnostics query. *)
Theorem main_failure_writes_nothing (tc : toolchain) (argc : Z)
        (argv : list string) (Code : string) :
  nth_error argv 1 = Some Code ->
  exists r, exec CLANG_PATH tc argc argv = Some r /\
    (exit_code r = 1 ->
       dump_requests (calls r) = [] /\
       (calls r = [buildASTFromCodeWithArgs Code Args "input.cc" CLANG_PATH]
        \/ exists AST,
             calls r = [buildASTFromCodeWithArgs Code Args "input.cc" CLANG_PATH;
                        hasUncompilableErrorOccurred (getDiagnostics AST)])).
Proof.
  intros Harg. by_outcome Harg.
  destruct (parse tc Code Args "input.cc" CLANG_PATH) as [AST|].
  - destruct (uncompilable tc (getDiagnostics AST)); cbn.
    + intros _. split; [reflexivity|]. right. now exists AST.
    + discriminate.
  - cbn. intros _. split; [reflexivity|]. now left.
Qed.

(** C6. The flag list given to the parse is the constant [Args], whatever
    the arguments of the process and the toolchain: two flags, of which one
    selects the language standard and one turns warnings on. *)
Theorem main_args_fixed (tc : toolchain) (argc : Z) (argv : list string)
        (Code : string) :
  nth_error argv 1 = Some Code ->
  exists r, exec CLANG_PATH tc argc argv = Some r /\
    map (fun '(_, As, _, _) => As) (parse_requests (calls r)) = [Args] /\
    Args = ["-std=c++20"; "-Wall"] /\
    length Args = 2%nat /\
    filter is_std_selector Args = ["-std=c++20"] /\
    filter is_warning_flag Args = ["-Wall"].
Proof.
  intros Harg. rewrite (exec_outcome _ _ _ _ Harg). eexists. split; [reflexivity|].
  rewrite outcome_parse_requests. repeat split.
Qed.

(** C7. The text given to the parse is the string at [argv[1]], as it is:
    the parse is the first thing [main] does, for every such string, and the
    run makes no other parse. *)
Theorem main_source_text (tc : toolchain) (argc : Z) (argv : list string)
        (Code : string) :
  nth_error argv 1 = Some Code ->
  (exists k, main CLANG_PATH argc argv
             = Some (Bind (buildASTFromCodeWithArgs Code Args "input.cc"
                                                    CLANG_PATH) k)) /\
  exists r, exec CLANG_PATH tc argc argv = Some r /\
    map (fun '(Text, _, _, _) => Text) (parse_requests (calls r)) = [Code].
Proof.
  intros Harg. split.
  - unfold main. rewrite Harg. eexists. reflexivity.
  - rewrite (exec_outcome _ _ _ _ Harg). eexists. split; [reflexivity|].
    now rewrite outcome_parse_requests.
Qed.

(** C9 (amended). In every run the parse is asked with the file name
    input.cc and the tool path [CLANG_PATH], whatever the arguments of the
    process are. *)
Theorem main_file_and_tool (tc : toolchain) (argc : Z) (argv : list string)
        (Code : string) :
  nth_error argv 1 = Some Code ->
  exists r, exec CLANG_PATH tc argc argv = Some r /\
    map (fun '(_, _, FileName, ToolName) => (FileName, ToolName))
        (parse_requests (calls r))
    = [("input.cc", CLANG_PATH)].
Proof.
  intros Harg. rewrite (exec_outcome _ _ _ _ Harg). eexists. split; [reflexivity|].
  now rewrite outcome_parse_requests.
Qed.

(** C10. Two invocations with the same string at [argv[1]] and the same
    toolchain are the same program and give the same result (exit status and
    calls, dumps included), whatever [argc] and the other entries of [argv]
    are. *)
Theorem main_ignores_argc_and_rest (tc : toolchain) (argc argc' : Z)
        (argv argv' : list string) (Code : string) :
  nth_error argv 1 = Some Code ->
  nth_error argv' 1 = Some Code ->
  main CLANG_PATH argc argv = main CLANG_PATH argc' argv' /\
  exists r, exec CLANG_PATH tc argc argv = Some r /\
            exec CLANG_PATH tc argc' argv' = Some r.
Proof.
  intros Harg Harg'. split.
  - apply main_reads_argv1_only. congruence.
  - exists (outcome CLANG_PATH tc Code).
    split; now apply exec_outcome.
Qed.

End ProgramFacts.

(** ** The properties at work on the stand-in toolchain *)

(** [main] evaluated: a declaration is parsed, queried and dumped; the text
    the stub cannot parse stops the run after the parse; a vector without
    [argv[1]] is outside the embedding. *)
Example exec_declaration :
  exec Stub.path Stub.tc 2 Stub.argv_ok
  = Some {| exit_code := 0;
            calls := [the_parse Stub.path "int x;";
                      the_query (Stub.unit_of "int x;");
                      the_dump (Stub.unit_of "int x;")] |}.
Proof. reflexivity. Qed.

Example exec_crash :
  exec Stub.path Stub.tc 2 Stub.argv_crash
  = Some {| exit_code := 1; calls := [the_parse Stub.path "crash"] |}.
Proof. reflexivity. Qed.

Example exec_empty_text :
  option_map exit_code
             (exec Stub.path Stub.tc 2 ["clang-minimal-example"; EmptyString])
  = Some 0.
Proof. reflexivity. Qed.

(** The second stand-in: an unfinished declaration is reported in the file
    named to the parse, and after a line marker in the file the marker
    names. *)
Example lined_plain :
  option_map Lined.diagnostic_files
             (parse Lined.tc "int x" Args "input.cc" Lined.path)
  = Some ["input.cc"].
Proof. reflexivity. Qed.

Example lined_marked :
  option_map Lined.diagnostic_files
             (parse Lined.tc Lined.marked Args "input.cc" Lined.path)
  = Some ["other.h"].
Proof. reflexivity. Qed.

Example exec_no_argument :
  exec Stub.path Stub.tc 1 ["clang-minimal-example"] = None.
Proof. reflexivity. Qed.

Lemma main_success_witness :
  nth_error Stub.argv_ok 1 = Some "int x;" /\
  exists r, exec Stub.path Stub.tc 2 Stub.argv_ok = Some r /\
    exit_code r = 0 /\
    dump_requests (calls r)
    = [getTranslationUnitDecl (getASTContext (Stub.unit_of "int x;"))] /\
    calls r = [buildASTFromCodeWithArgs "int x;" Args "input.cc" Stub.path;
               hasUncompilableErrorOccurred (getDiagnostics (Stub.unit_of "int x;"));
               dumpColor (getTranslationUnitDecl
                            (getASTContext (Stub.unit_of "int x;")))] /\
    written_on stderr (calls r)
    = [getTranslationUnitDecl (getASTContext (Stub.unit_of "int x;"))] /\
    written_on stdout (calls r) = [].
Proof.
  split; [reflexivity|].
  apply (@main_success Stub.clang Stub.path Stub.tc 2 Stub.argv_ok
                       "int x;" (Stub.unit_of "int x;")); reflexivity.
Defined.

(** The claim C1 as the specification words it fails on this run: the parse
    returns a unit, its diagnostics are clean, and no dump is written on
    standard output. *)
Lemma main_success_not_on_stdout :
  nth_error Stub.argv_ok 1 = Some "int x;" /\
  parse Stub.tc "int x;" Args "input.cc" Stub.path
  = Some (Stub.unit_of "int x;") /\
  uncompilable Stub.tc (getDiagnostics (Stub.unit_of "int x;")) = false /\
  ~ (exists r, exec Stub.path Stub.tc 2 Stub.argv_ok = Some r /\
               length (written_on stdout (calls r)) = 1%nat /\
               exit_code r = 0).
Proof.
  repeat split.
  intros (r & Hrun & Hone & _).
  injection Hrun as <-. discriminate Hone.
Qed.

Lemma main_no_result_witness :
  parse Stub.tc "crash" Args "input.cc" Stub.path = None /\
  exists r, exec Stub.path Stub.tc 2 Stub.argv_crash = Some r /\
    exit_code r = 1 /\
    calls r = [buildASTFromCodeWithArgs "crash" Args "input.cc" Stub.path] /\
    dump_requests (calls r) = [].
Proof.
  split; [reflexivity|].
  apply (@main_no_result Stub.clang Stub.path Stub.tc 2 Stub.argv_crash
                         "crash"); reflexivity.
Defined.

Lemma main_uncompilable_witness :
  uncompilable Stub.tc (getDiagnostics (Stub.unit_of "int x")) = true /\
  exists r, exec Stub.path Stub.tc 2 Stub.argv_bad = Some r /\
    exit_code r = 1 /\
    calls r = [buildASTFromCodeWithArgs "int x" Args "input.cc" Stub.path;
               hasUncompilableErrorOccurred (getDiagnostics (Stub.unit_of "int x"))] /\
    dump_requests (calls r) = [].
Proof.
  split; [reflexivity|].
  apply (@main_uncompilable Stub.clang Stub.path Stub.tc 2 Stub.argv_bad
                            "int x" (Stub.unit_of "int x")); reflexivity.
Defined.

Lemma main_exit_code_witness :
  nth_error Stub.argv_bad 1 = Some "int x" /\
  exists r, exec Stub.path Stub.tc 2 Stub.argv_bad = Some r /\
    (exit_code r = 0 \/ exit_code r = 1) /\
    (exit_code r = 0 <->
       exists AST, parse Stub.tc "int x" Args "input.cc" Stub.path = Some AST /\
                   uncompilable Stub.tc (getDiagnostics AST) = false) /\
    (parse Stub.tc "int x" Args "input.cc" Stub.path = None ->
     exit_code r = 1) /\
    (forall AST, parse Stub.tc "int x" Args "input.cc" Stub.path = Some AST ->
                 uncompilable Stub.tc (getDiagnostics AST) = true ->
                 exit_code r = 1).
Proof.
  split; [reflexivity|].
  apply (@main_exit_code Stub.clang Stub.path Stub.tc 2 Stub.argv_bad "int x").
  reflexivity.
Defined.

Lemma main_failure_writes_nothing_witness :
  nth_error Stub.argv_crash 1 = Some "crash" /\
  exists r, exec Stub.path Stub.tc 2 Stub.argv_crash = Some r /\
    (exit_code r = 1 ->
       dump_requests (calls r) = [] /\
       (calls r = [buildASTFromCodeWithArgs "crash" Args "input.cc" Stub.path]
        \/ exists AST,
             calls r = [buildASTFromCodeWithArgs "crash" Args "input.cc"
                                                 Stub.path;
                        hasUncompilableErrorOccurred (getDiagnostics AST)])).
Proof.
  split; [reflexivity|].
  apply (@main_failure_writes_nothing Stub.clang Stub.path Stub.tc 2
                                      Stub.argv_crash "crash").
  reflexivity.
Defined.

Lemma main_args_fixed_witness :
  nth_error Stub.argv_more 1 = Some "int x;" /\
  exists r, exec Stub.path Stub.tc 4 Stub.argv_more = Some r /\
    map (fun '(_, As, _, _) => As) (parse_requests (calls r)) = [Args] /\
    Args = ["-std=c++20"; "-Wall"] /\
    length Args = 2%nat /\
    filter is_std_selector Args = ["-std=c++20"] /\
    filter is_warning_flag Args = ["-Wall"].
Proof.
  split; [reflexivity|].
  apply (@main_args_fixed Stub.clang Stub.path Stub.tc 4 Stub.argv_more
                          "int x;").
  reflexivity.
Defined.

Lemma main_source_text_witness :
  nth_error Stub.argv_bad 1 = Some "int x" /\
  (exists k, @main Stub.clang Stub.path 2 Stub.argv_bad
             = Some (Bind (buildASTFromCodeWithArgs "int x" Args "input.cc"
                                                    Stub.path) k)) /\
  exists r, exec Stub.path Stub.tc 2 Stub.argv_bad = Some r /\
    map (fun '(Text, _, _, _) => Text) (parse_requests (calls r)) = ["int x"].
Proof.
  split; [reflexivity|].
  apply (@main_source_text Stub.clang Stub.path Stub.tc 2 Stub.argv_bad
                           "int x").
  reflexivity.
Defined.

Lemma main_file_and_tool_witness :
  nth_error Stub.argv_ok 1 = Some "int x;" /\
  exists r, exec Stub.path Stub.tc 2 Stub.argv_ok = Some r /\
    map (fun '(_, _, FileName, ToolName) => (FileName, ToolName))
        (parse_requests (calls r))
    = [("input.cc", Stub.path)].
Proof.
  split; [reflexivity|].
  apply (@main_file_and_tool Stub.clang Stub.path Stub.tc 2 Stub.argv_ok
                             "int x;").
  reflexivity.
Defined.

(** The claim C9 as the specification words it fails on this run: the parse
    is asked with the file name input.cc, and the diagnostics engine the run
    then queries names another file. *)
Lemma main_diagnostic_names_other_file :
  exists r AST,
    exec Lined.path Lined.tc 2 Lined.argv_marked = Some r /\
    map (fun '(_, _, FileName, ToolName) => (FileName, ToolName))
        (parse_requests (calls r))
    = [("input.cc", Lined.path)] /\
    query_requests (calls r) = [getDiagnostics AST] /\
    Lined.diagnostic_files (getDiagnostics AST) = ["other.h"] /\
    ~ Forall (fun file => file = "input.cc")
             (Lined.diagnostic_files (getDiagnostics AST)).
Proof.
  eexists. exists ["other.h"]. repeat split.
  intros Hall. inversion Hall as [|file files Hfile _]. discriminate Hfile.
Qed.

Lemma main_ignores_argc_and_rest_witness :
  nth_error Stub.argv_ok 1 = Some "int x;" /\
  nth_error Stub.argv_more 1 = Some "int x;" /\
  @main Stub.clang Stub.path 2 Stub.argv_ok
  = @main Stub.clang Stub.path 4 Stub.argv_more /\
  exists r, exec Stub.path Stub.tc 2 Stub.argv_ok = Some r /\
            exec Stub.path Stub.tc 4 Stub.argv_more = Some r.
Proof.
  split; [reflexivity|]. split; [reflexivity|].
  apply (@main_ignores_argc_and_rest Stub.clang Stub.path Stub.tc 2 4
                                     Stub.argv_ok Stub.argv_more "int x;");
    reflexivity.
Defined.

(** * What [main] asks of the library, and when *)

Section Guards.

Context {clang : Clang}.
Variable CLANG_PATH : string.

(** The diagnostics are asked about once, on the unit the parse returned,
    and not at all when the parse returned none: [AST->getDiagnostics()] is
    never reached with a null [AST]. *)
Theorem main_query_guarded (tc : toolchain) (argc : Z) (argv : list string)
        (Code : string) :
  nth_error argv 1 = Some Code ->
  exists r, exec CLANG_PATH tc argc argv = Some r /\
    query_requests (calls r)
    = match parse tc Code Args "input.cc" CLANG_PATH with
      | Some AST => [getDiagnostics AST]
      | None => []
      end.
Proof.
  intros Harg. rewrite (exec_outcome CLANG_PATH tc argc argv Code Harg).
  eexists. split; [reflexivity|]. unfold outcome.
  destruct (parse tc Code Args "input.cc" CLANG_PATH) as [AST|];
    [destruct (uncompilable tc (getDiagnostics AST))|]; reflexivity.
Qed.

(** Whatever a run dumps is the translation unit of the unit its parse
    returned, and the diagnostics of that unit were found free of
    uncompilable errors. *)
Theorem main_dump_guarded (tc : toolchain) (argc : Z) (argv : list string)
        (Code : string) :
  nth_error argv 1 = Some Code ->
  exists r, exec CLANG_PATH tc argc argv = Some r /\
    forall D, In D (dump_requests (calls r)) ->
      exists AST, parse tc Code Args "input.cc" CLANG_PATH = Some AST /\
                  uncompilable tc (getDiagnostics AST) = false /\
                  D = getTranslationUnitDecl (getASTContext AST).
Proof.
  intros Harg. rewrite (exec_outcome CLANG_PATH tc argc argv Code Harg).
  eexists. split; [reflexivity|]. unfold outcome.
  destruct (parse tc Code Args "input.cc" CLANG_PATH) as [AST|].
  - destruct (uncompilable tc (getDiagnostics AST)) eqn:Hdiag; cbn.
    + intros D [].
    + intros D [<- | []]. now exists AST.
  - cbn. intros D [].
Qed.

(** The exit status tells whether a dump was asked for: a run asks for at
    most one, and for one exactly when it exits with status 0. *)
Theorem main_status_tells_dump (tc : toolchain) (argc : Z)
        (argv : list string) (Code : string) :
  nth_error argv 1 = Some Code ->
  exists r, exec CLANG_PATH tc argc argv = Some r /\
    (length (dump_requests (calls r)) <= 1)%nat /\
    (exit_code r = 0 <-> length (dump_requests (calls r)) = 1%nat) /\
    (exit_code r = 1 <-> dump_requests (calls r) = []).
Proof.
  intros Harg. rewrite (exec_outcome CLANG_PATH tc argc argv Code Harg).
  eexists. split; [reflexivity|]. unfold outcome.
  destruct (parse tc Code Args "input.cc" CLANG_PATH) as [AST|];
    [destruct (uncompilable tc (getDiagnostics AST))|]; cbn;
    repeat split; try discriminate; auto.
Qed.

(** [main] consults the toolchain at one parse and at the diagnostics of its
    result, and nowhere else: two toolchains that agree there give the same
    run. *)
Theorem main_consults_one_parse (tc tc' : toolchain) (argc : Z)
        (argv : list string) (Code : string) :
  nth_error argv 1 = Some Code ->
  parse tc Code Args "input.cc" CLANG_PATH
  = parse tc' Code Args "input.cc" CLANG_PATH ->
  (forall AST, parse tc Code Args "input.cc" CLANG_PATH = Some AST ->
               uncompilable tc (getDiagnostics AST)
               = uncompilable tc' (getDiagnostics AST)) ->
  exists r, exec CLANG_PATH tc argc argv = Some r /\
            exec CLANG_PATH tc' argc argv = Some r.
Proof.
  intros Harg Hparse Hdiag.
  rewrite !(exec_outcome CLANG_PATH _ argc argv Code Harg).
  eexists. split; [reflexivity|]. f_equal. unfold outcome.
  rewrite <- Hparse.
  destruct (parse tc Code Args "input.cc" CLANG_PATH) as [AST|]; [|reflexivity].
  now rewrite (Hdiag AST eq_refl).
Qed.

End Guards.

Lemma main_query_guarded_witness :
  nth_error Stub.argv_crash 1 = Some "crash" /\
  exists r, exec Stub.path Stub.tc 2 Stub.argv_crash = Some r /\
    query_requests (calls r)
    = match parse Stub.tc "crash" Args "input.cc" Stub.path with
      | Some AST => [getDiagnostics AST]
      | None => []
      end.
Proof.
  split; [reflexivity|].
  apply (@main_query_guarded Stub.clang Stub.path Stub.tc 2 Stub.argv_crash
                             "crash").
  reflexivity.
Defined.

Lemma main_dump_guarded_witness :
  nth_error Stub.argv_ok 1 = Some "int x;" /\
  exists r, exec Stub.path Stub.tc 2 Stub.argv_ok = Some r /\
    forall D, In D (dump_requests (calls r)) ->
      exists AST, parse Stub.tc "int x;" Args "input.cc" Stub.path = Some AST /\
                  uncompilable Stub.tc (getDiagnostics AST) = false /\
                  D = getTranslationUnitDecl (getASTContext AST).
Proof.
  split; [reflexivity|].
  apply (@main_dump_guarded Stub.clang Stub.path Stub.tc 2 Stub.argv_ok
                            "int x;").
  reflexivity.
Defined.

Lemma main_status_tells_dump_witness :
  nth_error Stub.argv_bad 1 = Some "int x" /\
  exists r, exec Stub.path Stub.tc 2 Stub.argv_bad = Some r /\
    (length (dump_requests (calls r)) <= 1)%nat /\
    (exit_code r = 0 <-> length (dump_requests (calls r)) = 1%nat) /\
    (exit_code r = 1 <-> dump_requests (calls r) = []).
Proof.
  split; [reflexivity|].
  apply (@main_status_tells_dump Stub.clang Stub.path Stub.tc 2 Stub.argv_bad
                                 "int x").
  reflexivity.
Defined.

Lemma main_consults_one_parse_witness :
  parse Stub.tc "int x;" Args "input.cc" Stub.path
  = parse Stub.tc_strict "int x;" Args "input.cc" Stub.path /\
  parse Stub.tc "int x;" Args "a.cc" Stub.path
  <> parse Stub.tc_strict "int x;" Args "a.cc" Stub.path /\
  exists r, exec Stub.path Stub.tc 2 Stub.argv_ok = Some r /\
            exec Stub.path Stub.tc_strict 2 Stub.argv_ok = Some r.
Proof.
  split; [reflexivity|]. split; [discriminate|].
  apply (@main_consults_one_parse Stub.clang Stub.path Stub.tc Stub.tc_strict
                                  2 Stub.argv_ok "int x;").
  - reflexivity.
  - reflexivity.
  - intros AST [= <-]. reflexivity.
Defined.
